(** * secure-grpc: the Adder server and its client

    A shallow embedding of [src/server.py] and [src/client.py].  Both
    programs are straight-line Python over a handful of effects: reading
    credential files, printing, drawing random numbers and driving the gRPC
    runtime.  The effects are threaded through one state-and-exception
    monad over a [World]; every effect that a property can observe is
    appended to the world's [trace], in program order. *)

From Stdlib Require Import ZArith List String Lia.
From Stdlib.Strings Require Import Byte.
From stdpp Require Import base option list gmap strings pretty.

Local Open Scope string_scope.
Local Open Scope list_scope.

(** ** Messages of the service definition *)

Module adder_pb2.

(** Modelled from the spec: the generated module [adder_pb2] is not part
    of the sources.  The spec gives the request as two signed integers
    and the reply as one signed integer and fixes no width, so the fields
    are Python integers. *)
Record AddRequest := mkAddRequest { a : Z; b : Z }.

Record AddReply := mkAddReply { sum : Z }.

(** Modelled from the spec: the representable range of the schema's signed
    integer type.  The width [bits] is a parameter, since the schema is
    not part of the sources; the signed types of the schema language have
    32 or 64 bits. *)
Definition representable (bits : Z) (z : Z) : bool :=
  (- 2 ^ (bits - 1) <=? z)%Z && (z <? 2 ^ (bits - 1))%Z.

End adder_pb2.
Export adder_pb2.

(** ** The gRPC objects the two programs build *)

Abbreviation bytes := (list byte).

Module grpc.

(** [grpc.ssl_channel_credentials(root_certificates=None,
    private_key=None, certificate_chain=None)]: a call site passes
    [None] for each argument it omits. *)
Record ChannelCredentials := ssl_channel_credentials {
  root_certificates : option bytes;
  private_key : option bytes;
  certificate_chain : option bytes }.

(** [grpc.ssl_server_credentials(private_key_certificate_chain_pairs,
    root_certificates=None, require_client_auth=False)]: a call site
    passes the defaults for the keyword arguments it omits. *)
Record ServerCredentials := ssl_server_credentials {
  private_key_certificate_chain_pairs : list (bytes * bytes);
  client_root_certificates : option bytes;
  require_client_auth : bool }.

Inductive Channel :=
| insecure (target : string)
| secure (target : string) (credentials : ChannelCredentials).

End grpc.
Export grpc.

(** ** The process and its effects *)

Inductive exn :=
| AssertionError (line : nat)        (* the source line of the [assert] *)
| FileNotFoundError (name : string)
| PermissionError (name : string)
| ValueError
| RpcError (code : string).           (* grpc.aio.AioRpcError, by status code *)

Inductive file :=
| Readable (content : bytes)
| Unreadable.

Inductive event :=
| EvOpen (name : string)                      (* open(name, "br").read() *)
| EvPrint (line : string)
| EvChannel (ch : Channel)                    (* a channel is constructed *)
| EvAdd (request : AddRequest)                (* the request leaves the stub *)
| EvReply (reply : AddReply)                  (* the awaited reply arrives *)
| EvClose                                     (* channel.close() *)
| EvInsecurePort (address : string)
| EvSecurePort (address : string) (credentials : ServerCredentials)
| EvServicer                                  (* the Adder handler is registered *)
| EvStart                                     (* server.start() *)
| EvWait.                                     (* server.wait_for_termination() *)

(** The world of one process.  [entropy] is the output stream of the
    random generator and [cursor] the number of draws taken so far;
    [remote] is whatever answers an Add call made over a given channel, a
    reply or the status code of a failed call;
    [store] is the Python-level mutable state (module globals, attributes
    of live objects such as the servicer). *)
Record World := mkWorld {
  fs : gmap string file;
  entropy : nat -> N;
  cursor : nat;
  remote : Channel -> AddRequest -> string + AddReply;
  store : gmap string Z;
  trace : list event }.

Definition log (evs : list event) (w : World) : World :=
  {| fs := fs w; entropy := entropy w; cursor := cursor w;
     remote := remote w; store := store w; trace := trace w ++ evs |}.

Definition advance (w : World) : World :=
  {| fs := fs w; entropy := entropy w; cursor := S (cursor w);
     remote := remote w; store := store w; trace := trace w |}.

Definition M (A : Type) : Type := World -> (exn + A) * World.

Global Instance M_ret : MRet M := fun A x w => (inr x, w).

Global Instance M_bind : MBind M := fun A B k m w =>
  match m w with
  | (inr x, w') => k x w'
  | (inl e, w') => (inl e, w')
  end.

Definition raise {A} (e : exn) : M A := fun w => (inl e, w).

Definition emit (e : event) : M unit := fun w => (inr tt, log [e] w).

Definition print (line : string) : M unit := emit (EvPrint line).

(** Modelled from the spec: [adder_pb2.AddReply(sum=...)] as the generated
    class of a schema with a signed integer of [bits] bits runs it.  The
    class checks the value against the range of the field when the message
    is built and raises [ValueError] for a value outside it; it never
    stores a truncated value. *)
Definition AddReply_init (bits : Z) (sum : Z) : M AddReply :=
  if representable bits sum then mret (mkAddReply sum) else raise ValueError.

(** [assert cond] on source line [line]. *)
Definition assert_ (line : nat) (cond : bool) : M unit :=
  if cond then mret tt else raise (AssertionError line).

(** [open(name, "br").read()]. *)
Definition open_read (name : string) : M bytes := fun w =>
  match fs w !! name with
  | Some (Readable content) => (inr content, log [EvOpen name] w)
  | Some Unreadable => (inl (PermissionError name), log [EvOpen name] w)
  | None => (inl (FileNotFoundError name), log [EvOpen name] w)
  end.

(** CPython's [random]: [randint(a, b)] is [randrange(a, b + 1)], and
    [randrange(start, stop)] is [start + _randbelow(stop - start)] for a
    positive width.  [_randbelow(n)] yields any value of [0, n); here it is
    the next generator output reduced modulo [n]. *)
Definition randbelow (n : Z) : M Z := fun w =>
  (inr (Z.of_N (entropy w (cursor w)) mod n)%Z, advance w).

Definition randrange (start stop : Z) : M Z :=
  let width := (stop - start)%Z in
  if (0 <? width)%Z then r ← randbelow width; mret (start + r)%Z
  else raise ValueError.

Definition randint (lo hi : Z) : M Z := randrange lo (hi + 1).

(** ** The shared argument helper *)

Module common.

(** Modelled from the spec: [common.py] is not part of the sources.  The
    record is the namespace [parse_command_line_arguments] returns, with
    the attributes the two programs read; [server_host] and [server_port]
    hold the text the f-strings render. *)
Record Args := mkArgs {
  authentication : string;
  signer : string;
  server_host : string;
  server_port : string;
  server_authenticated : bool }.

End common.
Export common.

(** ** The gRPC runtime, as far as the two programs drive it *)

Module aio.

Definition insecure_channel (target : string) : M Channel :=
  emit (EvChannel (insecure target));; mret (insecure target).

Definition secure_channel (target : string) (credentials : ChannelCredentials)
  : M Channel :=
  emit (EvChannel (secure target credentials));;
  mret (secure target credentials).

(** [await channel.close()]. *)
Definition close (channel : Channel) : M unit := emit EvClose.

Definition add_insecure_port (address : string) : M unit :=
  emit (EvInsecurePort address).

(** The runtime is taken to accept the key and certificate it is given
    and to bind the port: a pair that is not well-formed, which the real
    runtime refuses here, is outside this model. *)
Definition add_secure_port (address : string) (credentials : ServerCredentials)
  : M unit :=
  emit (EvSecurePort address credentials).

Definition start : M unit := emit EvStart.

Definition wait_for_termination : M unit := emit EvWait.

End aio.

Module adder_pb2_grpc.

(** [AdderStub(channel)] binds the stub to its channel. *)
Record AdderStub := mkAdderStub { stub_channel : Channel }.

(** [await stub.Add(request)]: the request is sent over the stub's
    channel; what comes back is up to the remote end, a reply or a
    transport error. *)
Definition Add (stub : AdderStub) (request : AddRequest) : M AddReply := fun w =>
  match remote w (stub_channel stub) request with
  | inr reply => (inr reply, log [EvAdd request; EvReply reply] w)
  | inl code => (inl (RpcError code), log [EvAdd request] w)
  end.

Definition add_AdderServicer_to_server {Servicer} (servicer : Servicer) : M unit :=
  emit EvServicer.

End adder_pb2_grpc.

(** Python's [x in [y1, ..., yn]] on strings. *)
Definition py_in (x : string) (ys : list string) : bool :=
  existsb (String.eqb x) ys.

(** ** [src/server.py] *)

Module server.

(** [class Adder(adder_pb2_grpc.AdderServicer)]: the class body declares
    no attribute. *)
Inductive Adder : Set := Adder_new.

(** The [context] argument of a handler. *)
Record ServicerContext := mkContext { peer : string }.

Definition Add (self : Adder) (request : AddRequest) (context : ServicerContext)
  : M AddReply :=
  let reply := mkAddReply (a request + b request) in
  print ("Server: " +:+ pretty (a request) +:+ " + " +:+ pretty (b request)
         +:+ " = " +:+ pretty (sum reply));;
  mret reply.

(** The handler with the reply class of a schema whose integer type has
    [bits] bits: line 12 builds the reply, and the class refuses a sum it
    cannot represent, before anything is printed.  [Add] above is the
    handler on Python integers, with no such bound. *)
Definition Add_with_schema (bits : Z) (self : Adder) (request : AddRequest)
    (context : ServicerContext) : M AddReply :=
  reply ← AddReply_init bits (a request + b request);
  print ("Server: " +:+ pretty (a request) +:+ " + " +:+ pretty (b request)
         +:+ " = " +:+ pretty (sum reply));;
  mret reply.

(** [args] is what [common.parse_command_line_arguments("server")]
    returned; the object [grpc.aio.server()] is the one server of the
    process, and its methods act on the world. *)
Definition main (args : Args) : M unit :=
  let server_address := server_host args +:+ ":" +:+ server_port args in
  (if server_authenticated args then
     print "Server is authenticated by client";;
     server_private_key ← open_read "server.key";
     server_certificate ← open_read "server.crt";
     let credentials :=
       ssl_server_credentials [(server_private_key, server_certificate)] None false in
     aio.add_secure_port server_address credentials
   else
     print "Server is not authenticated by client";;
     aio.add_insecure_port server_address);;
  adder_pb2_grpc.add_AdderServicer_to_server Adder_new;;
  aio.start;;
  print ("Started server on " +:+ server_address);;
  aio.wait_for_termination.

End server.

(** ** [src/client.py] *)

Module client.
Section WithCommon.

(** The summary line comes from the absent helper module; the client
    only prints it. *)
Variable authentication_and_signer_summary : Args -> string.

Definition make_credentials (args : Args) : M ChannelCredentials :=
  assert_ 11 (py_in (authentication args) ["server"; "mutual"]);;
  assert_ 12 (py_in (signer args) ["self"; "root"; "intermediate"]);;
  root_certificate_for_server ←
    (if signer args =? "self" then open_read "server.crt"
     else if signer args =? "root" then open_read "root.crt"
     else open_read "intermediate.crt");
  if authentication args =? "mutual" then
    client_private_key ← open_read "client.key";
    client_certificate ← open_read "client.crt";
    mret (ssl_channel_credentials (Some root_certificate_for_server)
            (Some client_private_key) (Some client_certificate))
  else
    mret (ssl_channel_credentials (Some root_certificate_for_server) None None).

(** [args] is what [common.parse_command_line_arguments("server")]
    returned. *)
Definition main (args : Args) : M unit :=
  print (authentication_and_signer_summary args);;
  let server_address := server_host args +:+ ":" +:+ server_port args in
  channel ←
    (if authentication args =? "none" then aio.insecure_channel server_address
     else
       credentials ← make_credentials args;
       aio.secure_channel server_address credentials);
  let stub := adder_pb2_grpc.mkAdderStub channel in
  print ("Connecting to server on " +:+ server_address);;
  a ← randint 1 10001;
  b ← randint 1 10001;
  let request := mkAddRequest a b in
  reply ← adder_pb2_grpc.Add stub request;
  assert_ 43 (sum reply =? a + b)%Z;;
  print ("Client: " +:+ pretty (adder_pb2.a request) +:+ " + "
         +:+ pretty (adder_pb2.b request) +:+ " = " +:+ pretty (sum reply));;
  aio.close channel.

End WithCommon.
End client.

(** * Vocabulary of the properties *)

(** What a run from [w] to [w'] appended to the trace. *)
Definition new_events (w w' : World) : list event :=
  drop (length (trace w)) (trace w').

Definition with_fs (files : gmap string file) (w : World) : World :=
  {| fs := files; entropy := entropy w; cursor := cursor w;
     remote := remote w; store := store w; trace := trace w |}.

Definition readable (w : World) (name : string) : Prop :=
  exists content, fs w !! name = Some (Readable content).

(** A file that cannot be read: absent, or present and unreadable. *)
Definition unreadable (w : World) (name : string) : Prop :=
  forall content, fs w !! name <> Some (Readable content).

Definition OSError (name : string) (e : exn) : Prop :=
  e = FileNotFoundError name \/ e = PermissionError name.

Definition address (args : Args) : string :=
  server_host args +:+ ":" +:+ server_port args.

(** ** The server *)

Definition serving (address : string) : list event :=
  [EvServicer; EvStart; EvPrint ("Started server on " +:+ address); EvWait].

(** The secure ports a run configured. *)
Definition secure_ports (evs : list event) : list ServerCredentials :=
  omap (fun e => match e with EvSecurePort _ c => Some c | _ => None end) evs.



(** The handler returns a reply that carries the sum of the operands. *)
Definition returns_sum (bits : Z) (request : AddRequest) : Prop :=
  forall self context w,
    exists reply,
      fst (server.Add_with_schema bits self request context w) = inr reply /\
      sum reply = (a request + b request)%Z.


Definition server_line (request : AddRequest) : event :=
  EvPrint ("Server: " +:+ pretty (a request) +:+ " + " +:+ pretty (b request)
           +:+ " = " +:+ pretty (a request + b request)%Z).

(** ** The client's credentials *)

(** The trust anchor as the specification words it: [server.crt] for
    signer self, [root.crt] for signer root, [intermediate.crt] otherwise. *)
Definition trust_anchor (signer : string) : string :=
  if decide (signer = "self") then "server.crt"
  else if decide (signer = "root") then "root.crt"
  else "intermediate.crt".

(** The values the argument helper allows for the two flags. *)
Definition valid_authentication (args : Args) : Prop :=
  authentication args = "none" \/ authentication args = "server"
  \/ authentication args = "mutual".

Definition valid_signer (args : Args) : Prop :=
  signer args = "self" \/ signer args = "root" \/ signer args = "intermediate".

(** [make_credentials] past its two assertions. *)
Definition load_credentials (args : Args) : M ChannelCredentials :=
  root_certificate_for_server ← open_read (trust_anchor (signer args));
  if authentication args =? "mutual" then
    client_private_key ← open_read "client.key";
    client_certificate ← open_read "client.crt";
    mret (ssl_channel_credentials (Some root_certificate_for_server)
            (Some client_private_key) (Some client_certificate))
  else
    mret (ssl_channel_credentials (Some root_certificate_for_server) None None).

(** The files a client in an authenticated mode needs, in the order
    [make_credentials] opens them. *)
Definition required_files (args : Args) : list string :=
  trust_anchor (signer args)
  :: (if decide (authentication args = "mutual") then ["client.key"; "client.crt"]
      else []).

(** ** The client's run, in two stretches

    [connect] is [main] up to the construction of the channel, [exchange]
    is the rest: the two draws, the call, the check and the close. *)

Definition connect (summary : Args -> string) (args : Args) : M Channel :=
  print (summary args);;
  if authentication args =? "none" then aio.insecure_channel (address args)
  else
    credentials ← client.make_credentials args;
    aio.secure_channel (address args) credentials.

Definition connecting (args : Args) : event :=
  EvPrint ("Connecting to server on " +:+ address args).

Definition result_line (request : AddRequest) (reply : AddReply) : event :=
  EvPrint ("Client: " +:+ pretty (a request) +:+ " + " +:+ pretty (b request)
           +:+ " = " +:+ pretty (sum reply)).

(** The [n]-th operand the client draws from world [w]. *)
Definition operand (w : World) (n : nat) : Z :=
  (1 + Z.of_N (entropy w (cursor w + n)) mod 10001)%Z.

Definition drawn (w : World) : AddRequest :=
  mkAddRequest (operand w 0) (operand w 1).

Definition exchange (args : Args) (channel : Channel) : M unit := fun w =>
  let request := drawn w in
  let w2 := advance (advance w) in
  match remote w channel request with
  | inl code => (inl (RpcError code), log [connecting args; EvAdd request] w2)
  | inr reply =>
      if (sum reply =? a request + b request)%Z then
        (inr tt, log [connecting args; EvAdd request; EvReply reply;
                      result_line request reply; EvClose] w2)
      else
        (inl (AssertionError 43),
         log [connecting args; EvAdd request; EvReply reply] w2)
  end.

(** The run of [main] from [w], given what [connect] did. *)
Definition after_connect (args : Args) (w : World) (evs : list event)
    (rc : exn + Channel) : (exn + unit) * World :=
  match rc with
  | inl e => (inl e, log evs w)
  | inr channel =>
      match remote w channel (drawn w) with
      | inl code =>
          (inl (RpcError code),
           advance (advance (log (evs ++ [connecting args; EvAdd (drawn w)]) w)))
      | inr reply =>
          if (sum reply =? a (drawn w) + b (drawn w))%Z then
            (inr tt,
             advance (advance
               (log (evs ++ [connecting args; EvAdd (drawn w); EvReply reply;
                             result_line (drawn w) reply; EvClose]) w)))
          else
            (inl (AssertionError 43),
             advance (advance
               (log (evs ++ [connecting args; EvAdd (drawn w); EvReply reply]) w)))
      end
  end.

(** ** Kinds of events *)

(** The events of the [connect] stretch: the summary line, the files it
    opens, the channel it builds. *)
Definition setup_event (e : event) : bool :=
  match e with
  | EvPrint _ | EvOpen _ | EvChannel _ => true
  | _ => false
  end.

(** What a process does before it serves or sends anything: it prints and
    it opens files. *)
Definition startup_event (e : event) : bool :=
  match e with
  | EvPrint _ | EvOpen _ => true
  | _ => false
  end.

(** An event that touches credentials: a file is opened, or a channel is
    built from credentials. *)
Definition credential_event (e : event) : bool :=
  match e with
  | EvOpen _ | EvChannel (secure _ _) => true
  | _ => false
  end.

Definition is_request (e : event) : bool :=
  match e with EvAdd _ => true | _ => false end.

(** The events of the RPC itself: request, reply, close. *)
Definition rpc_event (e : event) : bool :=
  match e with
  | EvAdd _ | EvReply _ | EvClose => true
  | _ => false
  end.

Definition rpc_events (evs : list event) : list event := List.filter rpc_event evs.

(** The RPC events of a run are one request, one reply and the close, in
    this order. *)
Definition one_round_trip (evs : list event) : Prop :=
  exists request reply, rpc_events evs = [EvAdd request; EvReply reply; EvClose].

(** ** Sample processes *)

Definition pem (text : string) : bytes := list_byte_of_string text.

(** A remote end that runs the server's handler. *)
Definition adder_remote : Channel -> AddRequest -> string + AddReply :=
  fun _ request =>
    match fst (server.Add server.Adder_new request (server.mkContext "client")
                 (mkWorld ∅ (fun _ => 0%N) 0 (fun _ _ => inl "UNAVAILABLE") ∅ []))
    with
    | inr reply => inr reply
    | inl _ => inl "UNKNOWN"
    end.

(** A remote end that answers one too many. *)
Definition faulty_remote : Channel -> AddRequest -> string + AddReply :=
  fun _ request => inr (mkAddReply (a request + b request + 1)).

Definition boot (files : gmap string file) (draws : nat -> N)
    (peer : Channel -> AddRequest -> string + AddReply) : World :=
  mkWorld files draws 0 peer ∅ [].

Definition all_files : gmap string file :=
  list_to_map
    [("server.key", Readable (pem "server key"));
     ("server.crt", Readable (pem "server certificate"));
     ("root.crt", Readable (pem "root certificate"));
     ("intermediate.crt", Readable (pem "intermediate certificate"));
     ("client.key", Readable (pem "client key"));
     ("client.crt", Readable (pem "client certificate"))].

Definition banner (args : Args) : string :=
  "authentication=" +:+ authentication args +:+ " signer=" +:+ signer args.

Definition cli (authentication signer : string) (server_authenticated : bool) : Args :=
  mkArgs authentication signer "localhost" "50051" server_authenticated.

(** ** Further observations on a run *)

(** The files a run opened, in order. *)
Definition opened (evs : list event) : list string :=
  omap (fun e => match e with EvOpen name => Some name | _ => None end) evs.

(** The requests a run sent, in order. *)
Definition requests (evs : list event) : list AddRequest :=
  omap (fun e => match e with EvAdd request => Some request | _ => None end) evs.

(** What the server does to the gRPC runtime: ports, registration, start,
    wait. *)
Definition lifecycle_event (e : event) : bool :=
  match e with
  | EvInsecurePort _ | EvSecurePort _ _ | EvServicer | EvStart | EvWait => true
  | _ => false
  end.

Definition lifecycle (evs : list event) : list event :=
  List.filter lifecycle_event evs.

(** The address of a port and whether it is a secure one. *)
Definition port_of (e : event) : option (string * bool) :=
  match e with
  | EvInsecurePort address => Some (address, false)
  | EvSecurePort address _ => Some (address, true)
  | _ => None
  end.

(** Two argument records that agree on all the server reads. *)
Definition same_endpoint (args args' : Args) : Prop :=
  server_host args = server_host args' /\
  server_port args = server_port args' /\
  server_authenticated args = server_authenticated args'.

(** The credential files the client can ever ask for. *)
Definition client_files : list string :=
  ["server.crt"; "root.crt"; "intermediate.crt"; "client.key"; "client.crt"].


(** A remote end that is down. *)
Definition unavailable_remote : Channel -> AddRequest -> string + AddReply :=
  fun _ _ => inl "UNAVAILABLE".

(** * Verification *)

(** ** Running programs *)

Lemma bind_run {A B} (m : M A) (k : A -> M B) w :
  (m ≫= k) w =
    match m w with
    | (inr x, w') => k x w'
    | (inl e, w') => (inl e, w')
    end.
Proof. reflexivity. Qed.

Lemma log_log evs1 evs2 w : log evs2 (log evs1 w) = log (evs1 ++ evs2) w.
Proof. unfold log; cbn. by rewrite (assoc_L (++)). Qed.

Lemma log_advance evs w : log evs (advance w) = advance (log evs w).
Proof. reflexivity. Qed.


Lemma new_events_log evs w : new_events w (log evs w) = evs.
Proof. unfold new_events; cbn. by rewrite drop_app_length. Qed.

Lemma new_events_advance w w' : new_events w (advance w') = new_events w w'.
Proof. reflexivity. Qed.

Lemma print_run line w : print line w = (inr tt, log [EvPrint line] w).
Proof. reflexivity. Qed.

(** Unfold one monadic layer of a program applied to a world. *)
Ltac mrun :=
  repeat (rewrite ?bind_run;
          unfold print, emit, aio.insecure_channel, aio.secure_channel, aio.close,
            aio.add_insecure_port, aio.add_secure_port, aio.start,
            aio.wait_for_termination, adder_pb2_grpc.add_AdderServicer_to_server,
            assert_, raise, mret, M_ret;
          cbn beta iota zeta).

Lemma open_read_ok name content w :
  fs w !! name = Some (Readable content) ->
  open_read name w = (inr content, log [EvOpen name] w).
Proof. intros H. unfold open_read. by rewrite H. Qed.

Lemma open_read_fails name w :
  unreadable w name ->
  exists e, OSError name e /\ open_read name w = (inl e, log [EvOpen name] w).
Proof.
  intros H. unfold open_read, OSError.
  destruct (fs w !! name) as [[content|]|] eqn:E; [by destruct (H content)|eauto..].
Qed.

Lemma readable_or_not w name :
  (exists content, fs w !! name = Some (Readable content)) \/ unreadable w name.
Proof.
  unfold unreadable.
  destruct (fs w !! name) as [[content|]|]; [left; eauto|right; congruence..].
Qed.

(** ** The server's handler and start-up *)

Lemma Add_run self request context w :
  server.Add self request context w =
    (inr (mkAddReply (a request + b request)), log [server_line request] w).
Proof. reflexivity. Qed.

Lemma server_main_insecure args w :
  server_authenticated args = false ->
  server.main args w =
    (inr tt, log ([EvPrint "Server is not authenticated by client";
                   EvInsecurePort (address args)] ++ serving (address args)) w).
Proof.
  intros H. unfold server.main. rewrite H. mrun.
  by rewrite !log_log.
Qed.

Lemma server_main_secure args w key crt :
  server_authenticated args = true ->
  fs w !! "server.key" = Some (Readable key) ->
  fs w !! "server.crt" = Some (Readable crt) ->
  server.main args w =
    (inr tt, log ([EvPrint "Server is authenticated by client";
                   EvOpen "server.key"; EvOpen "server.crt";
                   EvSecurePort (address args)
                     (ssl_server_credentials [(key, crt)] None false)]
                  ++ serving (address args)) w).
Proof.
  intros H Hkey Hcrt. unfold server.main. rewrite H. mrun.
  rewrite (open_read_ok "server.key" key) by done. mrun.
  rewrite (open_read_ok "server.crt" crt) by done. mrun.
  by rewrite !log_log.
Qed.

Lemma server_main_key_unreadable args w :
  server_authenticated args = true ->
  unreadable w "server.key" ->
  exists e, OSError "server.key" e /\
    server.main args w =
      (inl e, log [EvPrint "Server is authenticated by client";
                   EvOpen "server.key"] w).
Proof.
  intros H Hkey. unfold server.main. rewrite H. mrun.
  destruct (open_read_fails "server.key"
              (log [EvPrint "Server is authenticated by client"] w))
    as (e & He & ->); [done|].
  exists e. split; [done|]. by rewrite !log_log.
Qed.

Lemma server_main_crt_unreadable args w key :
  server_authenticated args = true ->
  fs w !! "server.key" = Some (Readable key) ->
  unreadable w "server.crt" ->
  exists e, OSError "server.crt" e /\
    server.main args w =
      (inl e, log [EvPrint "Server is authenticated by client";
                   EvOpen "server.key"; EvOpen "server.crt"] w).
Proof.
  intros H Hkey Hcrt. unfold server.main. rewrite H. mrun.
  rewrite (open_read_ok "server.key" key) by done. mrun.
  destruct (open_read_fails "server.crt"
              (log [EvOpen "server.key"]
                 (log [EvPrint "Server is authenticated by client"] w)))
    as (e & He & ->); [done|].
  exists e. split; [done|]. by rewrite !log_log.
Qed.

(** ** The client's credentials *)

Lemma read_anchor signer :
  (if signer =? "self" then open_read "server.crt"
   else if signer =? "root" then open_read "root.crt"
   else open_read "intermediate.crt") = open_read (trust_anchor signer).
Proof.
  unfold trust_anchor.
  destruct (String.eqb_spec signer "self"), (String.eqb_spec signer "root");
    repeat case_decide; congruence.
Qed.

Lemma py_in_authentication args :
  py_in (authentication args) ["server"; "mutual"] = true <->
  authentication args = "server" \/ authentication args = "mutual".
Proof.
  unfold py_in; cbn.
  destruct (String.eqb_spec (authentication args) "server"),
           (String.eqb_spec (authentication args) "mutual"); cbn; intuition congruence.
Qed.

Lemma py_in_signer args :
  py_in (signer args) ["self"; "root"; "intermediate"] = true <-> valid_signer args.
Proof.
  unfold py_in, valid_signer; cbn.
  destruct (String.eqb_spec (signer args) "self"),
           (String.eqb_spec (signer args) "root"),
           (String.eqb_spec (signer args) "intermediate"); cbn; intuition congruence.
Qed.

Lemma make_credentials_asserted args w :
  (authentication args = "server" \/ authentication args = "mutual") ->
  valid_signer args ->
  client.make_credentials args w = load_credentials args w.
Proof.
  intros Ha Hs. unfold client.make_credentials, load_credentials.
  apply py_in_authentication in Ha. apply py_in_signer in Hs.
  rewrite Ha, Hs, read_anchor. reflexivity.
Qed.

Lemma make_credentials_bad_authentication args w :
  authentication args <> "server" -> authentication args <> "mutual" ->
  client.make_credentials args w = (inl (AssertionError 11), w).
Proof.
  intros H1 H2. unfold client.make_credentials.
  destruct (py_in (authentication args) ["server"; "mutual"]) eqn:E.
  - apply py_in_authentication in E. tauto.
  - reflexivity.
Qed.

Lemma make_credentials_bad_signer args w :
  (authentication args = "server" \/ authentication args = "mutual") ->
  ~ valid_signer args ->
  client.make_credentials args w = (inl (AssertionError 12), w).
Proof.
  intros Ha Hs. unfold client.make_credentials.
  apply py_in_authentication in Ha. rewrite Ha.
  destruct (py_in (signer args) ["self"; "root"; "intermediate"]) eqn:E.
  - apply py_in_signer in E. tauto.
  - reflexivity.
Qed.

Lemma load_server_only args w root :
  authentication args <> "mutual" ->
  fs w !! trust_anchor (signer args) = Some (Readable root) ->
  load_credentials args w =
    (inr (ssl_channel_credentials (Some root) None None),
     log [EvOpen (trust_anchor (signer args))] w).
Proof.
  intros Ha Hroot. unfold load_credentials. rewrite bind_run.
  rewrite (open_read_ok _ root) by done.
  by destruct (String.eqb_spec (authentication args) "mutual").
Qed.

Lemma load_mutual args w root key crt :
  authentication args = "mutual" ->
  fs w !! trust_anchor (signer args) = Some (Readable root) ->
  fs w !! "client.key" = Some (Readable key) ->
  fs w !! "client.crt" = Some (Readable crt) ->
  load_credentials args w =
    (inr (ssl_channel_credentials (Some root) (Some key) (Some crt)),
     log [EvOpen (trust_anchor (signer args)); EvOpen "client.key";
          EvOpen "client.crt"] w).
Proof.
  intros Ha Hroot Hkey Hcrt. unfold load_credentials. rewrite bind_run.
  rewrite (open_read_ok _ root) by done. rewrite Ha, String.eqb_refl.
  rewrite bind_run, (open_read_ok "client.key" key) by done.
  rewrite bind_run, (open_read_ok "client.crt" crt) by done.
  mrun. by rewrite !log_log.
Qed.

Lemma readable_not_unreadable w name : readable w name -> ~ unreadable w name.
Proof. intros [content H] Hn. by apply (Hn content). Qed.

(** Loading either reads every required file, or stops at the first one
    that cannot be read, with the error of that [open]. *)
Lemma load_credentials_outcome args w :
  (exists credentials,
      Forall (readable w) (required_files args) /\
      load_credentials args w =
        (inr credentials, log (map EvOpen (required_files args)) w))
  \/
  (exists e before name after,
      required_files args = before ++ name :: after /\
      unreadable w name /\ OSError name e /\
      load_credentials args w =
        (inl e, log (map EvOpen (before ++ [name])) w)).
Proof.
  unfold required_files.
  destruct (readable_or_not w (trust_anchor (signer args))) as [[root Hroot]|Hroot].
  - destruct (decide (authentication args = "mutual")) as [Ha|Ha].
    + destruct (readable_or_not w "client.key") as [[key Hkey]|Hkey].
      * destruct (readable_or_not w "client.crt") as [[crt Hcrt]|Hcrt].
        -- left. eexists. split; [|by apply load_mutual].
           repeat constructor; unfold readable; eauto.
        -- right. unfold load_credentials. rewrite bind_run.
           rewrite (open_read_ok _ root) by done. rewrite Ha, String.eqb_refl.
           rewrite bind_run, (open_read_ok "client.key" key) by done.
           rewrite bind_run.
           destruct (open_read_fails "client.crt"
                       (log [EvOpen "client.key"]
                          (log [EvOpen (trust_anchor (signer args))] w)))
             as (e & He & ->); [done|].
           exists e, [trust_anchor (signer args); "client.key"], "client.crt", [].
           repeat split; [done..|]. by rewrite !log_log.
      * right. unfold load_credentials. rewrite bind_run.
        rewrite (open_read_ok _ root) by done. rewrite Ha, String.eqb_refl.
        rewrite bind_run.
        destruct (open_read_fails "client.key"
                    (log [EvOpen (trust_anchor (signer args))] w))
          as (e & He & ->); [done|].
        exists e, [trust_anchor (signer args)], "client.key", ["client.crt"].
        repeat split; [done..|]. by rewrite !log_log.
    + left. eexists. split; [|by apply load_server_only].
      repeat constructor; unfold readable; eauto.
  - right. unfold load_credentials. rewrite bind_run.
    destruct (open_read_fails (trust_anchor (signer args)) w) as (e & He & ->); [done|].
    exists e, [], (trust_anchor (signer args)). eexists. repeat split; done.
Qed.

(** ** The client's run *)

Section ClientLemmas.

Variable summary : Args -> string.

Lemma randint_run w :
  randint 1 10001 w = (inr (operand w 0), advance w).
Proof.
  unfold randint, randrange, operand. cbn. by rewrite Nat.add_0_r.
Qed.

Lemma main_split args w :
  client.main summary args w =
    match connect summary args w with
    | (inr channel, w') => exchange args channel w'
    | (inl e, w') => (inl e, w')
    end.
Proof.
  unfold client.main, connect. rewrite !bind_run, !print_run.
  cbn beta iota. fold (address args). rewrite bind_run.
  match goal with
  | |- context [match ?c with (_, _) => _ end] => destruct c as [[e|channel] w2]
  end; [done|].
  rewrite bind_run, print_run. fold (connecting args).
  cbn beta iota. rewrite bind_run, randint_run, bind_run, randint_run.
  cbn beta iota zeta.
  assert (operand (advance (log [connecting args] w2)) 0 = operand w2 1) as ->.
  { unfold operand; cbn. by rewrite Nat.add_0_r, Nat.add_1_r. }
  change (operand (log [connecting args] w2) 0) with (operand w2 0).
  rewrite bind_run. unfold adder_pb2_grpc.Add, exchange, drawn; cbn.
  rewrite <- !log_advance.
  destruct (remote w2 channel _) as [e|reply]; [by rewrite !log_log|].
  rewrite bind_run. unfold assert_.
  destruct (sum reply =? _)%Z; mrun; by rewrite !log_log.
Qed.

Lemma connect_none args w :
  authentication args = "none" ->
  connect summary args w =
    (inr (insecure (address args)),
     log [EvPrint (summary args); EvChannel (insecure (address args))] w).
Proof.
  intros Ha. unfold connect. rewrite bind_run, print_run, Ha. cbn beta iota.
  change ("none" =? "none") with true. cbn beta iota.
  unfold aio.insecure_channel. mrun. by rewrite !log_log.
Qed.

Lemma connect_authenticated args w :
  authentication args <> "none" ->
  connect summary args w =
    match client.make_credentials args (log [EvPrint (summary args)] w) with
    | (inr credentials, w') =>
        (inr (secure (address args) credentials),
         log [EvChannel (secure (address args) credentials)] w')
    | (inl e, w') => (inl e, w')
    end.
Proof.
  intros Ha. unfold connect. rewrite bind_run, print_run. cbn beta iota.
  destruct (String.eqb_spec (authentication args) "none") as [|_]; [done|].
  rewrite bind_run.
  by destruct (client.make_credentials _ _) as [[e|credentials] w'].
Qed.

(** [connect] appends setup events only, whatever it returns. *)
Lemma connect_events args w :
  exists r evs,
    connect summary args w = (r, log evs w) /\ forallb setup_event evs = true.
Proof.
  destruct (decide (authentication args = "none")) as [Ha|Ha].
  { rewrite connect_none by done. eauto. }
  rewrite connect_authenticated by done.
  destruct (decide (authentication args = "server" \/ authentication args = "mutual"))
    as [Ha'|Ha'].
  - destruct (py_in (signer args) ["self"; "root"; "intermediate"]) eqn:Hs.
    + apply py_in_signer in Hs. rewrite make_credentials_asserted by done.
      destruct (load_credentials_outcome args (log [EvPrint (summary args)] w))
        as [(credentials & _ & ->)|(e & before & name & after & _ & _ & _ & ->)].
      * rewrite !log_log. do 2 eexists. split; [done|].
        cbn. rewrite forallb_app. cbn. rewrite andb_true_r.
        apply forallb_forall. intros x [name [<- _]]%in_map_iff. done.
      * rewrite !log_log. do 2 eexists. split; [done|].
        cbn. apply forallb_forall. intros x [f [<- _]]%in_map_iff. done.
    + rewrite make_credentials_bad_signer; [eauto|done|].
      rewrite <- py_in_signer. congruence.
  - rewrite make_credentials_bad_authentication by tauto. eauto.
Qed.

Lemma main_after_connect args w rc evs :
  connect summary args w = (rc, log evs w) ->
  client.main summary args w = after_connect args w evs rc.
Proof.
  intros Hc. rewrite main_split, Hc. unfold after_connect.
  destruct rc as [e|channel]; [done|].
  unfold exchange. change (drawn (log evs w)) with (drawn w).
  change (remote (log evs w)) with (remote w).
  destruct (remote w channel (drawn w)) as [code|reply].
  - by rewrite <- !log_advance, log_log.
  - destruct (sum reply =? _)%Z; by rewrite <- !log_advance, log_log.
Qed.

Lemma main_outcome args w :
  exists rc evs,
    forallb setup_event evs = true /\
    connect summary args w = (rc, log evs w) /\
    client.main summary args w = after_connect args w evs rc.
Proof.
  destruct (connect_events args w) as (rc & evs & Hc & Hevs).
  exists rc, evs. eauto using main_after_connect.
Qed.

Lemma main_none args w :
  authentication args = "none" ->
  client.main summary args w =
    after_connect args w
      [EvPrint (summary args); EvChannel (insecure (address args))]
      (inr (insecure (address args))).
Proof. intros Ha. apply main_after_connect. by apply connect_none. Qed.

(** With valid flags, [connect] can only fail on a file. *)
Lemma connect_valid args w e w' :
  valid_authentication args -> valid_signer args ->
  connect summary args w = (inl e, w') ->
  exists name, OSError name e.
Proof.
  intros Ha Hs.
  destruct (decide (authentication args = "none")) as [Hnone|Hnone].
  { by rewrite connect_none. }
  assert (authentication args = "server" \/ authentication args = "mutual")
    as Ha' by (unfold valid_authentication in Ha; tauto).
  rewrite connect_authenticated, make_credentials_asserted by done.
  destruct (load_credentials_outcome args (log [EvPrint (summary args)] w))
    as [(credentials & _ & ->)|(e' & before & name & after & _ & _ & He & ->)].
  - done.
  - intros [= <- _]. eauto.
Qed.

End ClientLemmas.

(** ** The properties of the specification *)

(** *** The handler's sum *)

(** In range, the handler with the reply class is the handler on Python
    integers. *)
Lemma Add_with_schema_in_range bits self request context w :
  representable bits (a request + b request) = true ->
  server.Add_with_schema bits self request context w
    = server.Add self request context w.
Proof.
  intros Hrange. unfold server.Add_with_schema, AddReply_init.
  by rewrite Hrange.
Qed.

Lemma Add_with_schema_out_of_range bits self request context w :
  representable bits (a request + b request) = false ->
  server.Add_with_schema bits self request context w = (inl ValueError, w).
Proof.
  intros Hrange. unfold server.Add_with_schema, AddReply_init.
  by rewrite Hrange.
Qed.

(** C1 as stated fails: the largest value of the integer type and 1 are
    both operands a request can carry, with 32 bits as with 64, and for
    them the handler returns no reply. *)
Lemma Add_raises_on_overflow :
  (representable 32 2147483647 = true /\ representable 32 1 = true /\
   ~ returns_sum 32 (mkAddRequest 2147483647 1))
  /\
  (representable 64 9223372036854775807 = true /\ representable 64 1 = true /\
   ~ returns_sum 64 (mkAddRequest 9223372036854775807 1)).
Proof.
  split; (split; [reflexivity|]; split; [reflexivity|]); intros H;
    destruct (H server.Adder_new (server.mkContext "client")
                (boot ∅ (fun _ => 0%N) adder_remote)) as (reply & Hrun & _);
    vm_compute in Hrun; discriminate Hrun.
Qed.

(** C1, amended.  For every request whose operands have a sum within the
    representable range of the schema's integer type, the Add handler
    returns a reply whose sum field is a + b exactly and prints its line.
    The handler itself neither validates a range nor truncates: a sum
    outside the range makes the construction of the reply raise, with
    nothing printed, and a reply that is returned never carries anything
    but a + b. *)
Theorem Add_returns_sum_in_range bits self request context w :
  (representable bits (a request + b request) = true ->
     server.Add_with_schema bits self request context w =
       (inr (mkAddReply (a request + b request)), log [server_line request] w))
  /\
  (representable bits (a request + b request) = false ->
     server.Add_with_schema bits self request context w = (inl ValueError, w))
  /\
  (forall reply,
      fst (server.Add_with_schema bits self request context w) = inr reply ->
      sum reply = (a request + b request)%Z).
Proof.
  split; [|split].
  - intros Hrange. by rewrite Add_with_schema_in_range, Add_run.
  - apply Add_with_schema_out_of_range.
  - intros reply.
    destruct (representable bits (a request + b request)) eqn:Hrange.
    + rewrite Add_with_schema_in_range, Add_run by done. by intros [= <-].
    + by rewrite Add_with_schema_out_of_range.
Qed.

Lemma Add_returns_sum_in_range_witness :
  server.Add_with_schema 32 server.Adder_new (mkAddRequest 2147483646 1)
    (server.mkContext "client") (boot ∅ (fun _ => 0%N) adder_remote) =
    (inr (mkAddReply 2147483647),
     log [EvPrint "Server: 2147483646 + 1 = 2147483647"]
       (boot ∅ (fun _ => 0%N) adder_remote))
  /\
  server.Add_with_schema 32 server.Adder_new (mkAddRequest 2147483647 1)
    (server.mkContext "client") (boot ∅ (fun _ => 0%N) adder_remote) =
    (inl ValueError, boot ∅ (fun _ => 0%N) adder_remote)
  /\
  sum (mkAddReply 2147483647) = (2147483646 + 1)%Z.
Proof.
  split; [|split].
  - apply (proj1 (Add_returns_sum_in_range 32 server.Adder_new
                    (mkAddRequest 2147483646 1) (server.mkContext "client")
                    (boot ∅ (fun _ => 0%N) adder_remote))).
    reflexivity.
  - apply (proj1 (proj2 (Add_returns_sum_in_range 32 server.Adder_new
                    (mkAddRequest 2147483647 1) (server.mkContext "client")
                    (boot ∅ (fun _ => 0%N) adder_remote)))).
    reflexivity.
  - apply (proj2 (proj2 (Add_returns_sum_in_range 32 server.Adder_new
                    (mkAddRequest 2147483646 1) (server.mkContext "client")
                    (boot ∅ (fun _ => 0%N) adder_remote)))
             (mkAddReply 2147483647)).
    reflexivity.
Defined.

(** *** The client's operands *)

Lemma operand_range w n : (1 <= operand w n <= 10001)%Z.
Proof.
  unfold operand.
  pose proof (Z.mod_pos_bound (Z.of_N (entropy w (cursor w + n))) 10001). lia.
Qed.

(** C2.  The client's operands are meant to lie in [1, 10000], but
    [random.randint(1, 10001)] includes its upper end: when the generator
    yields the top of the range, the request carries 10001. *)
Theorem operand_reaches_10001 :
  forall summary,
    client.main summary (cli "none" "self" false)
      (boot ∅ (fun _ => 10000%N) adder_remote)
    = (inr tt,
       advance (advance
         (log [EvPrint (summary (cli "none" "self" false));
               EvChannel (insecure "localhost:50051");
               EvPrint "Connecting to server on localhost:50051";
               EvAdd (mkAddRequest 10001 10001);
               EvReply (mkAddReply 20002);
               EvPrint "Client: 10001 + 10001 = 20002";
               EvClose]
            (boot ∅ (fun _ => 10000%N) adder_remote)))).
Proof.
  intros summary. vm_compute. reflexivity.
Qed.

(** *** The server and client identity *)




(** *** Credential construction in the client *)

(** C5.  [make_credentials] reads the trust anchor selected by the signer
    ([server.crt] for self, [root.crt] for root, [intermediate.crt]
    otherwise); in server-only mode it passes the anchor alone into the
    channel credentials, in mutual mode it also reads [client.key] and
    [client.crt] and passes the pair along. *)
Theorem make_credentials_by_mode_and_signer :
  (trust_anchor "self" = "server.crt" /\ trust_anchor "root" = "root.crt" /\
   trust_anchor "intermediate" = "intermediate.crt")
  /\
  (forall args w root,
      valid_signer args ->
      authentication args = "server" ->
      fs w !! trust_anchor (signer args) = Some (Readable root) ->
      client.make_credentials args w =
        (inr (ssl_channel_credentials (Some root) None None),
         log [EvOpen (trust_anchor (signer args))] w))
  /\
  (forall args w root key crt,
      valid_signer args ->
      authentication args = "mutual" ->
      fs w !! trust_anchor (signer args) = Some (Readable root) ->
      fs w !! "client.key" = Some (Readable key) ->
      fs w !! "client.crt" = Some (Readable crt) ->
      client.make_credentials args w =
        (inr (ssl_channel_credentials (Some root) (Some key) (Some crt)),
         log [EvOpen (trust_anchor (signer args)); EvOpen "client.key";
              EvOpen "client.crt"] w)).
Proof.
  split; [done|]. split.
  - intros args w root Hs Ha Hroot.
    rewrite make_credentials_asserted by tauto.
    apply load_server_only; [by rewrite Ha|done].
  - intros args w root key crt Hs Ha Hroot Hkey Hcrt.
    rewrite make_credentials_asserted by tauto.
    by apply load_mutual.
Qed.

Lemma make_credentials_by_mode_and_signer_witness :
  client.make_credentials (cli "server" "self" true)
    (boot all_files (fun _ => 0%N) adder_remote) =
    (inr (ssl_channel_credentials (Some (pem "server certificate")) None None),
     log [EvOpen "server.crt"] (boot all_files (fun _ => 0%N) adder_remote))
  /\
  client.make_credentials (cli "mutual" "intermediate" true)
    (boot all_files (fun _ => 0%N) adder_remote) =
    (inr (ssl_channel_credentials (Some (pem "intermediate certificate"))
            (Some (pem "client key")) (Some (pem "client certificate"))),
     log [EvOpen "intermediate.crt"; EvOpen "client.key"; EvOpen "client.crt"]
       (boot all_files (fun _ => 0%N) adder_remote)).
Proof.
  split.
  - apply (proj1 (proj2 make_credentials_by_mode_and_signer)
             (cli "server" "self" true) (boot all_files (fun _ => 0%N) adder_remote)).
    + left. reflexivity.
    + reflexivity.
    + reflexivity.
  - apply (proj2 (proj2 make_credentials_by_mode_and_signer)
             (cli "mutual" "intermediate" true)
             (boot all_files (fun _ => 0%N) adder_remote)).
    + right. right. reflexivity.
    + reflexivity.
    + reflexivity.
    + reflexivity.
    + reflexivity.
Defined.

(** *** Missing credential files *)




(** *** Insecure mode *)

(** C7.  With authentication none the client builds an insecure channel
    and reads no certificate or key file: its run has no credential event
    and is the same whatever the file system holds.  Against a remote end
    that answers the sum it completes the round trip: request, reply,
    result line, close. *)
Theorem insecure_mode_reads_no_file summary args w :
  authentication args = "none" ->
  (existsb credential_event (new_events w (snd (client.main summary args w))) = false
   /\ In (EvChannel (insecure (address args)))
         (new_events w (snd (client.main summary args w))))
  /\
  (forall files,
      fst (client.main summary args (with_fs files w))
        = fst (client.main summary args w) /\
      new_events (with_fs files w) (snd (client.main summary args (with_fs files w)))
        = new_events w (snd (client.main summary args w)))
  /\
  (forall reply,
      remote w (insecure (address args)) (drawn w) = inr reply ->
      sum reply = (a (drawn w) + b (drawn w))%Z ->
      client.main summary args w =
        (inr tt,
         advance (advance
           (log [EvPrint (summary args); EvChannel (insecure (address args));
                 connecting args; EvAdd (drawn w); EvReply reply;
                 result_line (drawn w) reply; EvClose] w)))).
Proof.
  intros Ha.
  assert (forall w0,
    new_events w0 (snd (client.main summary args w0)) =
      [EvPrint (summary args); EvChannel (insecure (address args));
       connecting args; EvAdd (drawn w0)] ++
      match remote w0 (insecure (address args)) (drawn w0) with
      | inl _ => []
      | inr reply =>
          EvReply reply ::
          if (sum reply =? a (drawn w0) + b (drawn w0))%Z
          then [result_line (drawn w0) reply; EvClose] else []
      end) as Hevents.
  { intros w0. rewrite main_none by done. unfold after_connect.
    destruct (remote w0 _ _) as [code|reply]; cbn [snd].
    - by rewrite !new_events_advance, new_events_log.
    - destruct (sum reply =? _)%Z; cbn [snd];
        by rewrite !new_events_advance, new_events_log. }
  split; [|split].
  - rewrite Hevents. split; [|apply in_or_app; left; right; by left].
    destruct (remote w _ _) as [code|reply]; [done|].
    by destruct (sum reply =? _)%Z.
  - intros files. split; [|by rewrite !Hevents].
    rewrite !main_none by done. unfold after_connect.
    change (drawn (with_fs files w)) with (drawn w).
    change (remote (with_fs files w)) with (remote w).
    destruct (remote w _ _) as [code|reply]; [done|].
    by destruct (sum reply =? _)%Z.
  - intros reply Hreply Hsum. rewrite main_none by done. unfold after_connect.
    rewrite Hreply, Hsum, Z.eqb_refl. done.
Qed.

Lemma insecure_mode_reads_no_file_witness :
  existsb credential_event
    (new_events (boot ∅ (fun n => N.of_nat (41 + n)) adder_remote)
       (snd (client.main banner (cli "none" "root" false)
               (boot ∅ (fun n => N.of_nat (41 + n)) adder_remote)))) = false
  /\
  client.main banner (cli "none" "root" false)
    (boot ∅ (fun n => N.of_nat (41 + n)) adder_remote) =
    (inr tt,
     advance (advance
       (log [EvPrint "authentication=none signer=root";
             EvChannel (insecure "localhost:50051");
             EvPrint "Connecting to server on localhost:50051";
             EvAdd (mkAddRequest 42 43); EvReply (mkAddReply 85);
             EvPrint "Client: 42 + 43 = 85"; EvClose]
          (boot ∅ (fun n => N.of_nat (41 + n)) adder_remote)))).
Proof.
  split.
  - apply (proj1 (proj1 (insecure_mode_reads_no_file banner (cli "none" "root" false)
                           (boot ∅ (fun n => N.of_nat (41 + n)) adder_remote) eq_refl))).
  - apply (proj2 (proj2 (insecure_mode_reads_no_file banner (cli "none" "root" false)
                           (boot ∅ (fun n => N.of_nat (41 + n)) adder_remote) eq_refl))
             (mkAddReply 85)); reflexivity.
Defined.

(** *** The client's check of the reply *)

Lemma setup_not_request evs :
  forallb setup_event evs = true -> forallb (fun e => negb (is_request e)) evs = true.
Proof.
  rewrite !forallb_forall. intros H e He. specialize (H e He). by destruct e.
Qed.

(** A list with a single request splits around it in one way only. *)
Lemma split_at_request l1 x l2 k1 y k2 :
  forallb (fun e => negb (is_request e)) l1 = true ->
  forallb (fun e => negb (is_request e)) l2 = true ->
  is_request y = true ->
  l1 ++ x :: l2 = k1 ++ y :: k2 ->
  l1 = k1 /\ x = y /\ l2 = k2.
Proof.
  intros H1 H2 Hy. revert k1. induction l1 as [|h l1 IH]; intros [|k k1] Heq; cbn in *.
  - by injection Heq as -> ->.
  - injection Heq as -> ->. rewrite forallb_app in H2. cbn in H2.
    rewrite Hy in H2. cbn in H2. by rewrite andb_false_r in H2.
  - injection Heq as -> _. rewrite Hy in H1. done.
  - injection Heq as -> Heq. apply andb_prop in H1 as [_ H1].
    destruct (IH H1 k1 Heq) as (-> & -> & ->). done.
Qed.

(** C4.  Once a reply has arrived, a sum that differs from a + b makes
    the client raise the assertion error of line 43 with nothing printed
    (and nothing else done) after the reply; the result line follows the
    reply only when the sum equals a + b, and then it is the line for this
    request and reply, followed by the close. *)
Theorem mismatch_aborts_before_result_line
    summary args w r w' before request reply after :
  client.main summary args w = (r, w') ->
  new_events w w' = before ++ EvAdd request :: EvReply reply :: after ->
  (sum reply <> (a request + b request)%Z ->
     r = inl (AssertionError 43) /\ after = [])
  /\
  (sum reply = (a request + b request)%Z ->
     r = inr tt /\ after = [result_line request reply; EvClose])
  /\
  (forall line, In (EvPrint line) after -> sum reply = (a request + b request)%Z).
Proof.
  intros Hmain Hevs.
  destruct (main_outcome summary args w) as (rc & evs & Hsetup & _ & Hrun).
  rewrite Hrun in Hmain. unfold after_connect in Hmain.
  pose proof (setup_not_request evs Hsetup) as Hquiet.
  assert (forallb (fun e => negb (is_request e)) (evs ++ [connecting args]) = true)
    as Hquiet' by (by rewrite forallb_app, Hquiet).
  destruct rc as [e|channel].
  { injection Hmain as <- <-. rewrite new_events_log in Hevs.
    rewrite Hevs, forallb_app in Hquiet. cbn in Hquiet.
    by rewrite andb_false_r in Hquiet. }
  assert (forall rest,
    forallb (fun e => negb (is_request e)) rest = true ->
    evs ++ connecting args :: EvAdd (drawn w) :: rest
      = before ++ EvAdd request :: EvReply reply :: after ->
    drawn w = request /\ rest = EvReply reply :: after) as Hsplit.
  { intros rest Hrest Heq.
    rewrite (cons_middle (connecting args) evs), (assoc_L (++) evs) in Heq.
    destruct (split_at_request _ _ _ _ (EvAdd request) _ Hquiet' Hrest eq_refl Heq)
      as (_ & [= ->] & ->).
    done. }
  destruct (remote w channel (drawn w)) as [code|reply0].
  { injection Hmain as <- <-.
    rewrite !new_events_advance, new_events_log in Hevs.
    by apply Hsplit in Hevs as (_ & [=]). }
  destruct (Z.eqb_spec (sum reply0) (a (drawn w) + b (drawn w))) as [Hsum|Hsum];
    injection Hmain as <- <-;
    rewrite !new_events_advance, new_events_log in Hevs;
    apply Hsplit in Hevs as (<- & [= <- <-]); done.
Qed.

Lemma mismatch_aborts_before_result_line_witness :
  (fst (client.main banner (cli "none" "root" false)
          (boot ∅ (fun n => N.of_nat (41 + n)) faulty_remote))
     = inl (AssertionError 43) /\ @nil event = [])
  /\
  (fst (client.main banner (cli "none" "root" false)
          (boot ∅ (fun n => N.of_nat (41 + n)) adder_remote))
     = inr tt /\
   [EvPrint "Client: 42 + 43 = 85"; EvClose]
     = [result_line (mkAddRequest 42 43) (mkAddReply 85); EvClose]).
Proof.
  split.
  - apply (proj1 (mismatch_aborts_before_result_line banner (cli "none" "root" false)
                    (boot ∅ (fun n => N.of_nat (41 + n)) faulty_remote) _ _
                    [EvPrint "authentication=none signer=root";
                     EvChannel (insecure "localhost:50051");
                     EvPrint "Connecting to server on localhost:50051"]
                    (mkAddRequest 42 43) (mkAddReply 86) []
                    (surjective_pairing _) eq_refl)).
    cbn. lia.
  - apply (proj1 (proj2 (mismatch_aborts_before_result_line banner
                    (cli "none" "root" false)
                    (boot ∅ (fun n => N.of_nat (41 + n)) adder_remote) _ _
                    [EvPrint "authentication=none signer=root";
                     EvChannel (insecure "localhost:50051");
                     EvPrint "Connecting to server on localhost:50051"]
                    (mkAddRequest 42 43) (mkAddReply 85)
                    [EvPrint "Client: 42 + 43 = 85"; EvClose]
                    (surjective_pairing _) eq_refl))).
    reflexivity.
Defined.

(** *** One round trip *)

(** C9 as stated fails: in server mode with no [root.crt] the client stops
    at the failed [open], and its run has no request, no reply and no
    close. *)
Lemma failed_start_makes_no_round_trip :
  ~ one_round_trip
      (new_events (boot ∅ (fun _ => 0%N) adder_remote)
         (snd (client.main banner (cli "server" "root" true)
                 (boot ∅ (fun _ => 0%N) adder_remote)))).
Proof. intros (request & reply & H). vm_compute in H. discriminate H. Qed.

Lemma rpc_events_setup evs :
  forallb setup_event evs = true -> rpc_events evs = [].
Proof.
  unfold rpc_events. induction evs as [|e evs IH]; [done|].
  cbn. intros [He Hevs]%andb_prop. rewrite IH by done. by destruct e.
Qed.

Lemma rpc_events_app evs1 evs2 :
  rpc_events (evs1 ++ evs2) = rpc_events evs1 ++ rpc_events evs2.
Proof. apply List.filter_app. Qed.

(** C9, amended.  No invocation sends more than one request: the RPC
    events of a run are always an initial part of request, reply, close.
    An invocation that terminates normally has performed exactly one round
    trip and then closed the channel, the close being its last action; an
    invocation that fails has not closed the channel. *)
Theorem one_round_trip_when_successful summary args w r w' :
  client.main summary args w = (r, w') ->
  (exists reply,
      rpc_events (new_events w w')
        `prefix_of` [EvAdd (drawn w); EvReply reply; EvClose])
  /\
  (r = inr tt ->
     one_round_trip (new_events w w') /\ last (new_events w w') = Some EvClose)
  /\
  (r <> inr tt -> ~ In EvClose (new_events w w')).
Proof.
  intros Hmain.
  destruct (main_outcome summary args w) as (rc & evs & Hsetup & _ & Hrun).
  rewrite Hrun in Hmain. unfold after_connect in Hmain.
  pose proof (rpc_events_setup evs Hsetup) as Hrpc.
  assert (~ In EvClose evs) as Hopen.
  { intros Hin. rewrite forallb_forall in Hsetup. by specialize (Hsetup _ Hin). }
  destruct rc as [e|channel].
  { injection Hmain as <- <-. rewrite new_events_log, Hrpc.
    split; [exists (mkAddReply 0); apply prefix_nil|]. by split. }
  destruct (remote w channel (drawn w)) as [code|reply].
  { injection Hmain as <- <-. rewrite !new_events_advance, new_events_log.
    rewrite rpc_events_app, Hrpc. cbn.
    split; [exists (mkAddReply 0); by apply prefix_cons, prefix_nil|].
    split; [done|]. intros _ [Hin|Hin]%in_app_or; [done|].
    destruct Hin as [Hin|[Hin|[]]]; discriminate Hin. }
  destruct (sum reply =? _)%Z; injection Hmain as <- <-;
    rewrite !new_events_advance, new_events_log, rpc_events_app, Hrpc; cbn.
  - split; [by exists reply|]. split; [|done]. intros _. split.
    + exists (drawn w), reply. by rewrite rpc_events_app, Hrpc.
    + by rewrite last_app_cons.
  - split; [exists reply; by do 2 apply prefix_cons; apply prefix_nil|].
    split; [done|]. intros _ [Hin|Hin]%in_app_or; [done|].
    destruct Hin as [Hin|[Hin|[Hin|[]]]]; discriminate Hin.
Qed.

Lemma one_round_trip_when_successful_witness :
  (one_round_trip
     (new_events (boot ∅ (fun n => N.of_nat (41 + n)) adder_remote)
        (snd (client.main banner (cli "none" "root" false)
                (boot ∅ (fun n => N.of_nat (41 + n)) adder_remote)))) /\
   last (new_events (boot ∅ (fun n => N.of_nat (41 + n)) adder_remote)
           (snd (client.main banner (cli "none" "root" false)
                   (boot ∅ (fun n => N.of_nat (41 + n)) adder_remote))))
     = Some EvClose)
  /\
  ~ In EvClose
      (new_events (boot ∅ (fun n => N.of_nat (41 + n)) faulty_remote)
         (snd (client.main banner (cli "none" "root" false)
                 (boot ∅ (fun n => N.of_nat (41 + n)) faulty_remote)))).
Proof.
  split.
  - apply (proj1 (proj2 (one_round_trip_when_successful banner (cli "none" "root" false)
                           (boot ∅ (fun n => N.of_nat (41 + n)) adder_remote) _ _
                           (surjective_pairing _)))).
    reflexivity.
  - apply (proj2 (proj2 (one_round_trip_when_successful banner (cli "none" "root" false)
                           (boot ∅ (fun n => N.of_nat (41 + n)) faulty_remote) _ _
                           (surjective_pairing _)))).
    vm_compute. discriminate.
Defined.

(** *** The assertions of [make_credentials] *)

(** The assertions are live: called outside [main] with authentication
    none, [make_credentials] fails on its first line. *)
Example make_credentials_rejects_none :
  client.make_credentials (cli "none" "root" false)
    (boot all_files (fun _ => 0%N) adder_remote)
  = (inl (AssertionError 11), boot all_files (fun _ => 0%N) adder_remote).
Proof. reflexivity. Qed.

(** C10.  When the flags are among the values the argument helper allows,
    the two assertions at the top of [make_credentials] hold whenever
    [main] calls it (that is, whenever authentication is not none), and no
    run of [main] ends in the assertion error of line 11 or of line 12. *)
Theorem make_credentials_assertions_hold summary args w :
  valid_authentication args -> valid_signer args ->
  (authentication args <> "none" ->
     py_in (authentication args) ["server"; "mutual"] = true /\
     py_in (signer args) ["self"; "root"; "intermediate"] = true /\
     forall w0, client.make_credentials args w0 = load_credentials args w0)
  /\
  fst (client.main summary args w) <> inl (AssertionError 11)
  /\
  fst (client.main summary args w) <> inl (AssertionError 12).
Proof.
  intros Ha Hs. split.
  - intros Hnone.
    assert (authentication args = "server" \/ authentication args = "mutual")
      as Ha' by (unfold valid_authentication in Ha; tauto).
    split; [by apply py_in_authentication|]. split; [by apply py_in_signer|].
    intros w0. by apply make_credentials_asserted.
  - destruct (main_outcome summary args w) as (rc & evs & _ & Hc & ->).
    unfold after_connect. destruct rc as [e|channel].
    + destruct (connect_valid summary args w e _ Ha Hs Hc) as [name [-> | ->]];
        by split.
    + destruct (remote w channel (drawn w)) as [code|reply]; [by split|].
      destruct (sum reply =? _)%Z; by split.
Qed.

Lemma make_credentials_assertions_hold_witness :
  (py_in "mutual" ["server"; "mutual"] = true /\
   py_in "root" ["self"; "root"; "intermediate"] = true /\
   forall w0, client.make_credentials (cli "mutual" "root" true) w0
              = load_credentials (cli "mutual" "root" true) w0)
  /\
  fst (client.main banner (cli "mutual" "root" true)
         (boot all_files (fun _ => 0%N) adder_remote)) <> inl (AssertionError 11)
  /\
  fst (client.main banner (cli "mutual" "root" true)
         (boot all_files (fun _ => 0%N) adder_remote)) <> inl (AssertionError 12).
Proof.
  pose proof (make_credentials_assertions_hold banner (cli "mutual" "root" true)
                (boot all_files (fun _ => 0%N) adder_remote)
                (or_intror (or_intror eq_refl)) (or_intror (or_introl eq_refl)))
    as H.
  split; [|exact (proj2 H)].
  apply (proj1 H). discriminate.
Defined.

(** *** The handler and server-side state *)



(** * Further properties of the two programs *)

(** ** The server's start-up *)

Lemma lifecycle_log_serving pre port address :
  forallb startup_event pre = true ->
  lifecycle_event port = true ->
  lifecycle (pre ++ port :: serving address) = [port; EvServicer; EvStart; EvWait].
Proof.
  intros Hpre Hport. unfold lifecycle. rewrite List.filter_app. cbn.
  rewrite Hport.
  assert (List.filter lifecycle_event pre = []) as ->; [|done].
  induction pre as [|e pre IH]; [done|].
  cbn in *. apply andb_prop in Hpre as [He Hpre]. rewrite IH by done.
  by destruct e.
Qed.

(** X1.  A server with [server_authenticated] on returns normally only if
    [server.key] and [server.crt] can both be read, and then its one
    secure port carries the content of [server.key] as the private key and
    the content of [server.crt] as the certificate chain. *)
Theorem server_start_requires_readable_credentials args w :
  fst (server.main args w) = inr tt ->
  server_authenticated args = true ->
  exists key crt,
    fs w !! "server.key" = Some (Readable key) /\
    fs w !! "server.crt" = Some (Readable crt) /\
    secure_ports (new_events w (snd (server.main args w)))
      = [ssl_server_credentials [(key, crt)] None false].
Proof.
  intros Hrun Hauth.
  destruct (readable_or_not w "server.key") as [[key Hkey]|Hkey].
  - destruct (readable_or_not w "server.crt") as [[crt Hcrt]|Hcrt].
    + exists key, crt. split; [done|]. split; [done|].
      rewrite (server_main_secure args w key crt) by done.
      cbn [snd]. by rewrite new_events_log.
    + destruct (server_main_crt_unreadable args w key) as (e & _ & Hfail); [done..|].
      by rewrite Hfail in Hrun.
  - destruct (server_main_key_unreadable args w) as (e & _ & Hfail); [done..|].
    by rewrite Hfail in Hrun.
Qed.

Lemma server_start_requires_readable_credentials_witness :
  exists key crt,
    fs (boot all_files (fun _ => 0%N) adder_remote) !! "server.key"
      = Some (Readable key) /\
    fs (boot all_files (fun _ => 0%N) adder_remote) !! "server.crt"
      = Some (Readable crt) /\
    secure_ports
      (new_events (boot all_files (fun _ => 0%N) adder_remote)
         (snd (server.main (cli "server" "root" true)
                 (boot all_files (fun _ => 0%N) adder_remote))))
      = [ssl_server_credentials [(key, crt)] None false].
Proof.
  apply (server_start_requires_readable_credentials (cli "server" "root" true)
           (boot all_files (fun _ => 0%N) adder_remote)); reflexivity.
Defined.

(** X2.  The server's dealings with the runtime are all or nothing and in
    one order.  A run that returns normally has configured exactly one
    port, at host:port and secure exactly when [server_authenticated] is
    on, then registered the handler, then started, then waited; a run that
    fails has configured no port and started nothing. *)
Theorem server_lifecycle args w :
  match fst (server.main args w) with
  | inr _ =>
      exists port,
        lifecycle (new_events w (snd (server.main args w)))
          = [port; EvServicer; EvStart; EvWait] /\
        port_of port = Some (address args, server_authenticated args)
  | inl _ => lifecycle (new_events w (snd (server.main args w))) = []
  end.
Proof.
  destruct (server_authenticated args) eqn:Hauth.
  - destruct (readable_or_not w "server.key") as [[key Hkey]|Hkey].
    + destruct (readable_or_not w "server.crt") as [[crt Hcrt]|Hcrt].
      * rewrite (server_main_secure args w key crt) by done.
        cbn [fst snd]. rewrite new_events_log. eexists.
        split; [by apply (lifecycle_log_serving [_; _; _])|done].
      * destruct (server_main_crt_unreadable args w key) as (e & _ & ->); [done..|].
        cbn [fst snd]. by rewrite new_events_log.
    + destruct (server_main_key_unreadable args w) as (e & _ & ->); [done..|].
      cbn [fst snd]. by rewrite new_events_log.
  - rewrite server_main_insecure by done.
    cbn [fst snd]. rewrite new_events_log. eexists.
    split; [by apply (lifecycle_log_serving [_])|done].
Qed.

(** X3.  The server reads nothing but [server_host], [server_port] and
    [server_authenticated]: two argument records that agree on these give
    the same run, whatever their authentication mode and signer. *)
Theorem server_ignores_mode_and_signer args args' w :
  same_endpoint args args' ->
  server.main args w = server.main args' w.
Proof.
  intros (Hhost & Hport & Hauth). unfold server.main.
  by rewrite Hhost, Hport, Hauth.
Qed.

Lemma server_ignores_mode_and_signer_witness :
  server.main (cli "mutual" "root" false) (boot all_files (fun _ => 0%N) adder_remote)
  = server.main (cli "none" "self" false) (boot all_files (fun _ => 0%N) adder_remote).
Proof.
  apply (server_ignores_mode_and_signer (cli "mutual" "root" false)
           (cli "none" "self" false)).
  repeat split.
Defined.

(** X4.  A server without [server_authenticated] opens no file and starts
    whatever the file system holds: the run is the same on any other file
    system, and it listens on an insecure port even when the mode asked
    for is server or mutual. *)
Theorem unauthenticated_server_needs_no_files args w :
  server_authenticated args = false ->
  fst (server.main args w) = inr tt /\
  opened (new_events w (snd (server.main args w))) = [] /\
  secure_ports (new_events w (snd (server.main args w))) = [] /\
  (forall files,
      fst (server.main args (with_fs files w)) = fst (server.main args w) /\
      new_events (with_fs files w) (snd (server.main args (with_fs files w)))
        = new_events w (snd (server.main args w))).
Proof.
  intros Hauth. rewrite !server_main_insecure by done. cbn [fst snd].
  rewrite new_events_log. repeat split.
  all: intros; rewrite server_main_insecure by done; cbn [fst snd];
    by rewrite ?new_events_log.
Qed.

Lemma unauthenticated_server_needs_no_files_witness :
  fst (server.main (cli "mutual" "root" false) (boot ∅ (fun _ => 0%N) adder_remote))
    = inr tt /\
  opened (new_events (boot ∅ (fun _ => 0%N) adder_remote)
            (snd (server.main (cli "mutual" "root" false)
                    (boot ∅ (fun _ => 0%N) adder_remote)))) = [] /\
  secure_ports (new_events (boot ∅ (fun _ => 0%N) adder_remote)
                  (snd (server.main (cli "mutual" "root" false)
                          (boot ∅ (fun _ => 0%N) adder_remote)))) = [].
Proof.
  pose proof (unauthenticated_server_needs_no_files (cli "mutual" "root" false)
                (boot ∅ (fun _ => 0%N) adder_remote) eq_refl) as (H1 & H2 & H3 & _).
  exact (conj H1 (conj H2 H3)).
Defined.

(** ** The client's credentials *)

Lemma valid_signer_dec args : valid_signer args \/ ~ valid_signer args.
Proof.
  destruct (py_in (signer args) ["self"; "root"; "intermediate"]) eqn:E.
  - left. by apply py_in_signer.
  - right. rewrite <- py_in_signer. congruence.
Qed.

(** X5.  [make_credentials] returns credentials exactly when the mode is
    server or mutual, the signer is one of self, root and intermediate,
    and every file the mode and signer call for can be read. *)
Theorem make_credentials_succeeds_iff args w :
  (exists credentials w', client.make_credentials args w = (inr credentials, w'))
  <->
  (authentication args = "server" \/ authentication args = "mutual") /\
  valid_signer args /\
  Forall (readable w) (required_files args).
Proof.
  split.
  - intros (credentials & w' & Hrun).
    destruct (decide (authentication args = "server" \/ authentication args = "mutual"))
      as [Ha|Ha].
    2: { rewrite make_credentials_bad_authentication in Hrun by tauto. done. }
    destruct (valid_signer_dec args) as [Hs|Hs].
    2: { by rewrite make_credentials_bad_signer in Hrun. }
    rewrite make_credentials_asserted in Hrun by done.
    destruct (load_credentials_outcome args w)
      as [(c & Hall & _)|(e & before & name & after & _ & _ & _ & Hfail)]; [done|].
    by rewrite Hfail in Hrun.
  - intros (Ha & Hs & Hall). rewrite make_credentials_asserted by done.
    destruct (load_credentials_outcome args w)
      as [(c & _ & ->)|(e & before & name & after & Hreq & Hun & _ & _)]; [eauto|].
    rewrite Forall_forall in Hall.
    destruct (readable_not_unreadable w name); [|done].
    apply Hall. rewrite Hreq. apply list_elem_of_In, in_or_app. right. by left.
Qed.

(** X6.  Called with a mode other than server and mutual,
    [make_credentials] raises the assertion error of line 11; called with
    such a mode and a signer other than self, root and intermediate, it
    raises the one of line 12.  In both cases it has opened no file and
    left the world as it was, so these errors come before any complaint
    about a missing file. *)
Theorem make_credentials_rejects_bad_arguments args w :
  (~ (authentication args = "server" \/ authentication args = "mutual") ->
     client.make_credentials args w = (inl (AssertionError 11), w))
  /\
  ((authentication args = "server" \/ authentication args = "mutual") ->
   ~ valid_signer args ->
     client.make_credentials args w = (inl (AssertionError 12), w)).
Proof.
  split.
  - intros Ha. apply make_credentials_bad_authentication; tauto.
  - apply make_credentials_bad_signer.
Qed.

Lemma make_credentials_rejects_bad_arguments_witness :
  client.make_credentials (cli "tls" "nobody" true) (boot ∅ (fun _ => 0%N) adder_remote)
    = (inl (AssertionError 11), boot ∅ (fun _ => 0%N) adder_remote)
  /\
  client.make_credentials (cli "mutual" "nobody" true) (boot ∅ (fun _ => 0%N) adder_remote)
    = (inl (AssertionError 12), boot ∅ (fun _ => 0%N) adder_remote).
Proof.
  split.
  - apply (proj1 (make_credentials_rejects_bad_arguments (cli "tls" "nobody" true)
                    (boot ∅ (fun _ => 0%N) adder_remote))).
    intros [H|H]; discriminate H.
  - apply (proj2 (make_credentials_rejects_bad_arguments (cli "mutual" "nobody" true)
                    (boot ∅ (fun _ => 0%N) adder_remote))).
    + right. reflexivity.
    + intros [H|[H|H]]; discriminate H.
Defined.

(** X7.  With valid arguments [make_credentials] opens the required files
    in their order (trust anchor, then [client.key], then [client.crt]) and
    stops at the first it cannot read: the files it opened are an initial
    part of the required ones, all of them when it succeeds and ending in
    the unreadable one when it fails.  Opening files is all it does to the
    world. *)
Theorem make_credentials_reads_in_order args w :
  (authentication args = "server" \/ authentication args = "mutual") ->
  valid_signer args ->
  exists names,
    snd (client.make_credentials args w) = log (map EvOpen names) w /\
    names `prefix_of` required_files args /\
    match fst (client.make_credentials args w) with
    | inr _ => names = required_files args
    | inl e =>
        exists name, last names = Some name /\ unreadable w name /\ OSError name e
    end.
Proof.
  intros Ha Hs. rewrite make_credentials_asserted by done.
  destruct (load_credentials_outcome args w)
    as [(c & _ & ->)|(e & before & name & after & Hreq & Hun & He & ->)]; cbn [fst snd].
  - exists (required_files args). split; [done|]. split; [done|done].
  - exists (before ++ [name]). split; [done|]. split.
    + exists after. by rewrite Hreq, <- (assoc_L (++)).
    + exists name. by rewrite last_snoc.
Qed.

Lemma make_credentials_reads_in_order_witness :
  exists names,
    snd (client.make_credentials (cli "mutual" "root" true)
           (boot (delete "client.key" all_files) (fun _ => 0%N) adder_remote))
      = log (map EvOpen names)
          (boot (delete "client.key" all_files) (fun _ => 0%N) adder_remote) /\
    names `prefix_of` required_files (cli "mutual" "root" true) /\
    match fst (client.make_credentials (cli "mutual" "root" true)
                 (boot (delete "client.key" all_files) (fun _ => 0%N) adder_remote))
    with
    | inr _ => names = required_files (cli "mutual" "root" true)
    | inl e =>
        exists name,
          last names = Some name /\
          unreadable (boot (delete "client.key" all_files) (fun _ => 0%N) adder_remote)
            name /\
          OSError name e
    end.
Proof.
  apply (make_credentials_reads_in_order (cli "mutual" "root" true)
           (boot (delete "client.key" all_files) (fun _ => 0%N) adder_remote)).
  - right. reflexivity.
  - right. left. reflexivity.
Defined.

(** ** The client's run *)

(** Why [connect] can fail: an assertion of [make_credentials], or a
    required file that cannot be read. *)
Lemma connect_errors summary args w e w' :
  connect summary args w = (inl e, w') ->
  (~ valid_authentication args /\ e = AssertionError 11 /\
   w' = log [EvPrint (summary args)] w)
  \/
  ((authentication args = "server" \/ authentication args = "mutual") /\
   ~ valid_signer args /\ e = AssertionError 12 /\
   w' = log [EvPrint (summary args)] w)
  \/
  ((authentication args = "server" \/ authentication args = "mutual") /\
   valid_signer args /\
   exists name, In name (required_files args) /\ unreadable w name /\ OSError name e).
Proof.
  destruct (decide (authentication args = "none")) as [Hnone|Hnone].
  { by rewrite connect_none. }
  rewrite connect_authenticated by done.
  destruct (decide (authentication args = "server" \/ authentication args = "mutual"))
    as [Ha|Ha].
  - destruct (valid_signer_dec args) as [Hs|Hs].
    + rewrite make_credentials_asserted by done.
      destruct (load_credentials_outcome args (log [EvPrint (summary args)] w))
        as [(c & _ & ->)|(e' & before & name & after & Hreq & Hun & He & ->)]; [done|].
      intros [= <- _]. right. right. split; [done|]. split; [done|].
      exists name. split; [|done]. rewrite Hreq. apply in_or_app. right. by left.
    + rewrite make_credentials_bad_signer by done. intros [= <- <-].
      right. left. done.
  - rewrite make_credentials_bad_authentication by tauto. intros [= <- <-].
    left. split; [|done]. unfold valid_authentication. tauto.
Qed.

Lemma required_files_known args name :
  In name (required_files args) -> In name client_files.
Proof.
  unfold required_files, client_files, trust_anchor.
  repeat case_decide; cbn; intuition (subst; auto).
Qed.

(** X8.  [main] guards the call of [make_credentials] by "not none" only,
    so a mode outside none, server and mutual reaches the first assertion:
    the run ends in the assertion error of line 11, and a signer outside
    self, root and intermediate in mode server or mutual ends it in the one
    of line 12.  In both cases the summary line is all the run has done. *)
Theorem main_rejects_unknown_flags summary args w :
  (~ valid_authentication args ->
     client.main summary args w =
       (inl (AssertionError 11), log [EvPrint (summary args)] w))
  /\
  ((authentication args = "server" \/ authentication args = "mutual") ->
   ~ valid_signer args ->
     client.main summary args w =
       (inl (AssertionError 12), log [EvPrint (summary args)] w)).
Proof.
  split.
  - intros Ha. unfold valid_authentication in Ha.
    rewrite main_split, connect_authenticated by tauto.
    by rewrite make_credentials_bad_authentication by tauto.
  - intros Ha Hs.
    assert (authentication args <> "none") by (destruct Ha as [Ha|Ha]; by rewrite Ha).
    rewrite main_split, connect_authenticated by done.
    by rewrite make_credentials_bad_signer.
Qed.

Lemma main_rejects_unknown_flags_witness :
  client.main banner (cli "tls" "root" true) (boot all_files (fun _ => 0%N) adder_remote)
    = (inl (AssertionError 11),
       log [EvPrint (banner (cli "tls" "root" true))]
         (boot all_files (fun _ => 0%N) adder_remote))
  /\
  client.main banner (cli "server" "nobody" true)
    (boot all_files (fun _ => 0%N) adder_remote)
    = (inl (AssertionError 12),
       log [EvPrint (banner (cli "server" "nobody" true))]
         (boot all_files (fun _ => 0%N) adder_remote)).
Proof.
  split.
  - apply (proj1 (main_rejects_unknown_flags banner (cli "tls" "root" true)
                    (boot all_files (fun _ => 0%N) adder_remote))).
    intros [H|[H|H]]; discriminate H.
  - apply (proj2 (main_rejects_unknown_flags banner (cli "server" "nobody" true)
                    (boot all_files (fun _ => 0%N) adder_remote))).
    + left. reflexivity.
    + intros [H|[H|H]]; discriminate H.
Defined.

(** X9.  The errors a client run can end in are: the assertion errors of
    lines 11, 12 and 43, a failed call, and a file error on one of
    [server.crt], [root.crt], [intermediate.crt], [client.key] and
    [client.crt] that indeed cannot be read.  In particular the draw of
    the operands never fails, and the client never asks for
    [server.key]. *)
Theorem client_errors summary args w e :
  fst (client.main summary args w) = inl e ->
  e = AssertionError 11 \/ e = AssertionError 12 \/ e = AssertionError 43
  \/ (exists code, e = RpcError code)
  \/ (exists name, In name client_files /\ unreadable w name /\ OSError name e).
Proof.
  destruct (main_outcome summary args w) as (rc & evs & _ & Hc & ->).
  unfold after_connect. destruct rc as [e'|channel].
  - cbn [fst]. intros [= ->].
    destruct (connect_errors _ _ _ _ _ Hc)
      as [(_ & -> & _)|[(_ & _ & -> & _)|(_ & _ & name & Hin & Hun & He)]]; [tauto..|].
    do 4 right. exists name. eauto using required_files_known.
  - destruct (remote w channel (drawn w)) as [code|reply].
    + cbn [fst]. intros [= <-]. eauto 6.
    + destruct (sum reply =? _)%Z; cbn [fst]; intros [= <-]. tauto.
Qed.

Lemma client_errors_witness :
  FileNotFoundError "root.crt" = AssertionError 11
  \/ FileNotFoundError "root.crt" = AssertionError 12
  \/ FileNotFoundError "root.crt" = AssertionError 43
  \/ (exists code, FileNotFoundError "root.crt" = RpcError code)
  \/ (exists name,
        In name client_files /\
        unreadable (boot ∅ (fun _ => 0%N) adder_remote) name /\
        OSError name (FileNotFoundError "root.crt")).
Proof.
  apply (client_errors banner (cli "server" "root" true)
           (boot ∅ (fun _ => 0%N) adder_remote)).
  reflexivity.
Defined.

Lemma requests_setup evs : forallb setup_event evs = true -> requests evs = [].
Proof.
  unfold requests. induction evs as [|e evs IH]; [done|].
  cbn. intros [He Hevs]%andb_prop. rewrite IH by done. by destruct e.
Qed.

Lemma requests_app evs1 evs2 : requests (evs1 ++ evs2) = requests evs1 ++ requests evs2.
Proof. apply omap_app. Qed.

(** X10.  A failed call is passed on as it is: when the run ends in the
    error of the call, the request is the last thing the run did (no
    reply, no result line, no close), and in mode none a remote end that
    fails with some status code makes the run end in the error with that
    code. *)
Theorem rpc_failure_propagates summary args w :
  (forall code,
      fst (client.main summary args w) = inl (RpcError code) ->
      rpc_events (new_events w (snd (client.main summary args w)))
        = [EvAdd (drawn w)] /\
      last (new_events w (snd (client.main summary args w)))
        = Some (EvAdd (drawn w)))
  /\
  (authentication args = "none" ->
   forall code,
      remote w (insecure (address args)) (drawn w) = inl code ->
      client.main summary args w =
        (inl (RpcError code),
         advance (advance
           (log [EvPrint (summary args); EvChannel (insecure (address args));
                 connecting args; EvAdd (drawn w)] w)))).
Proof.
  split.
  - intros code.
    destruct (main_outcome summary args w) as (rc & evs & Hsetup & Hc & ->).
    unfold after_connect. destruct rc as [e|channel].
    + cbn [fst]. intros [= ->].
      destruct (connect_errors _ _ _ _ _ Hc)
        as [(_ & [=] & _)|[(_ & _ & [=] & _)|(_ & _ & name & _ & _ & [[=]|[=]])]].
    + destruct (remote w channel (drawn w)) as [code'|reply].
      * cbn [fst snd]. intros _.
        rewrite !new_events_advance, new_events_log, rpc_events_app.
        rewrite (rpc_events_setup evs) by done. split; [done|].
        by rewrite last_app_cons.
      * by destruct (sum reply =? _)%Z.
  - intros Ha code Hcode. rewrite main_none by done. unfold after_connect.
    by rewrite Hcode.
Qed.

Lemma rpc_failure_propagates_witness :
  (rpc_events
     (new_events (boot ∅ (fun n => N.of_nat (41 + n)) unavailable_remote)
        (snd (client.main banner (cli "none" "root" false)
                (boot ∅ (fun n => N.of_nat (41 + n)) unavailable_remote))))
     = [EvAdd (mkAddRequest 42 43)] /\
   last
     (new_events (boot ∅ (fun n => N.of_nat (41 + n)) unavailable_remote)
        (snd (client.main banner (cli "none" "root" false)
                (boot ∅ (fun n => N.of_nat (41 + n)) unavailable_remote))))
     = Some (EvAdd (mkAddRequest 42 43)))
  /\
  client.main banner (cli "none" "root" false)
    (boot ∅ (fun n => N.of_nat (41 + n)) unavailable_remote) =
    (inl (RpcError "UNAVAILABLE"),
     advance (advance
       (log [EvPrint "authentication=none signer=root";
             EvChannel (insecure "localhost:50051");
             EvPrint "Connecting to server on localhost:50051";
             EvAdd (mkAddRequest 42 43)]
          (boot ∅ (fun n => N.of_nat (41 + n)) unavailable_remote)))).
Proof.
  split.
  - apply (proj1 (rpc_failure_propagates banner (cli "none" "root" false)
                    (boot ∅ (fun n => N.of_nat (41 + n)) unavailable_remote))
             "UNAVAILABLE").
    reflexivity.
  - apply (proj2 (rpc_failure_propagates banner (cli "none" "root" false)
                    (boot ∅ (fun n => N.of_nat (41 + n)) unavailable_remote))
             eq_refl "UNAVAILABLE").
    reflexivity.
Defined.

(** X11.  Every request a client run sends has both operands between 1
    and 10001, bounds included, and the run takes two draws from the
    generator for each request it sends: two when it gets as far as the
    call, none when it fails before. *)
Theorem requests_within_bounds summary args w :
  Forall (fun request =>
            (1 <= a request <= 10001)%Z /\ (1 <= b request <= 10001)%Z)
    (requests (new_events w (snd (client.main summary args w))))
  /\
  length (requests (new_events w (snd (client.main summary args w)))) <= 1
  /\
  cursor (snd (client.main summary args w))
    = cursor w + 2 * length (requests (new_events w (snd (client.main summary args w)))).
Proof.
  assert (Forall (fun request =>
            (1 <= a request <= 10001)%Z /\ (1 <= b request <= 10001)%Z) [drawn w])
    as Hdrawn.
  { constructor; [|done]. split; apply operand_range. }
  destruct (main_outcome summary args w) as (rc & evs & Hsetup & _ & ->).
  pose proof (requests_setup evs Hsetup) as Hnone.
  unfold after_connect. destruct rc as [e|channel].
  { cbn [snd]. rewrite new_events_log, Hnone. cbn. split; [done|]. lia. }
  destruct (remote w channel (drawn w)) as [code|reply];
    [|destruct (sum reply =? _)%Z];
    cbn [snd]; rewrite !new_events_advance, new_events_log, requests_app, Hnone;
    cbn; (split; [done|]; lia).
Qed.

(** ** Client and handler together *)




(** ** The authenticated modes, all going well *)

(** X13.  In mode server with a valid signer and a readable trust anchor,
    the client opens the anchor and nothing else, builds a secure channel
    whose credentials hold the anchor alone, and against a remote end that
    answers the sum on that channel completes the round trip.  In mode
    mutual it opens the anchor, [client.key] and [client.crt] and the
    channel's credentials hold all three.  In both modes every file is
    read before the channel is built. *)
Theorem authenticated_round_trip summary args w root reply :
  valid_signer args ->
  fs w !! trust_anchor (signer args) = Some (Readable root) ->
  sum reply = (a (drawn w) + b (drawn w))%Z ->
  (authentication args = "server" ->
   remote w (secure (address args) (ssl_channel_credentials (Some root) None None))
     (drawn w) = inr reply ->
   client.main summary args w =
     (inr tt,
      advance (advance
        (log [EvPrint (summary args); EvOpen (trust_anchor (signer args));
              EvChannel (secure (address args)
                           (ssl_channel_credentials (Some root) None None));
              connecting args; EvAdd (drawn w); EvReply reply;
              result_line (drawn w) reply; EvClose] w))))
  /\
  (authentication args = "mutual" ->
   forall key crt,
     fs w !! "client.key" = Some (Readable key) ->
     fs w !! "client.crt" = Some (Readable crt) ->
     remote w
       (secure (address args)
          (ssl_channel_credentials (Some root) (Some key) (Some crt)))
       (drawn w) = inr reply ->
     client.main summary args w =
       (inr tt,
        advance (advance
          (log [EvPrint (summary args); EvOpen (trust_anchor (signer args));
                EvOpen "client.key"; EvOpen "client.crt";
                EvChannel (secure (address args)
                             (ssl_channel_credentials (Some root) (Some key)
                                (Some crt)));
                connecting args; EvAdd (drawn w); EvReply reply;
                result_line (drawn w) reply; EvClose] w)))).
Proof.
  intros Hs Hroot Hsum. split.
  - intros Ha Hreply.
    rewrite (main_after_connect summary args w
               (inr (secure (address args)
                       (ssl_channel_credentials (Some root) None None)))
               [EvPrint (summary args); EvOpen (trust_anchor (signer args));
                EvChannel (secure (address args)
                             (ssl_channel_credentials (Some root) None None))]).
    + unfold after_connect. by rewrite Hreply, Hsum, Z.eqb_refl.
    + rewrite connect_authenticated by (by rewrite Ha).
      rewrite make_credentials_asserted by tauto.
      rewrite (load_server_only args _ root); [|by rewrite Ha|done].
      by rewrite !log_log.
  - intros Ha key crt Hkey Hcrt Hreply.
    rewrite (main_after_connect summary args w
               (inr (secure (address args)
                       (ssl_channel_credentials (Some root) (Some key) (Some crt))))
               [EvPrint (summary args); EvOpen (trust_anchor (signer args));
                EvOpen "client.key"; EvOpen "client.crt";
                EvChannel (secure (address args)
                             (ssl_channel_credentials (Some root) (Some key)
                                (Some crt)))]).
    + unfold after_connect. by rewrite Hreply, Hsum, Z.eqb_refl.
    + rewrite connect_authenticated by (by rewrite Ha).
      rewrite make_credentials_asserted by tauto.
      rewrite (load_mutual args _ root key crt) by done.
      by rewrite !log_log.
Qed.

Lemma authenticated_round_trip_witness :
  client.main banner (cli "server" "self" true)
    (boot all_files (fun n => N.of_nat (41 + n)) adder_remote) =
    (inr tt,
     advance (advance
       (log [EvPrint "authentication=server signer=self"; EvOpen "server.crt";
             EvChannel (secure "localhost:50051"
                          (ssl_channel_credentials (Some (pem "server certificate"))
                             None None));
             EvPrint "Connecting to server on localhost:50051";
             EvAdd (mkAddRequest 42 43); EvReply (mkAddReply 85);
             EvPrint "Client: 42 + 43 = 85"; EvClose]
          (boot all_files (fun n => N.of_nat (41 + n)) adder_remote))))
  /\
  client.main banner (cli "mutual" "intermediate" true)
    (boot all_files (fun n => N.of_nat (41 + n)) adder_remote) =
    (inr tt,
     advance (advance
       (log [EvPrint "authentication=mutual signer=intermediate";
             EvOpen "intermediate.crt"; EvOpen "client.key"; EvOpen "client.crt";
             EvChannel (secure "localhost:50051"
                          (ssl_channel_credentials
                             (Some (pem "intermediate certificate"))
                             (Some (pem "client key"))
                             (Some (pem "client certificate"))));
             EvPrint "Connecting to server on localhost:50051";
             EvAdd (mkAddRequest 42 43); EvReply (mkAddReply 85);
             EvPrint "Client: 42 + 43 = 85"; EvClose]
          (boot all_files (fun n => N.of_nat (41 + n)) adder_remote)))).
Proof.
  split.
  - apply (proj1 (authenticated_round_trip banner (cli "server" "self" true)
                    (boot all_files (fun n => N.of_nat (41 + n)) adder_remote)
                    (pem "server certificate") (mkAddReply 85)
                    (or_introl eq_refl) eq_refl eq_refl));
      reflexivity.
  - apply (proj2 (authenticated_round_trip banner (cli "mutual" "intermediate" true)
                    (boot all_files (fun n => N.of_nat (41 + n)) adder_remote)
                    (pem "intermediate certificate") (mkAddReply 85)
                    (or_intror (or_intror eq_refl)) eq_refl eq_refl)
             eq_refl (pem "client key") (pem "client certificate"));
      reflexivity.
Defined.
